(** * Deep research assistant: the adapter, the pipeline and the action handler

    A shallow embedding of [deep_research_openai.py].  Python values that
    travel through the program (the crawl service's response, the record
    the adapter returns) are kept dynamically typed, since the source
    inspects them with [.keys()], [.get] and [len] and relies on the
    enclosing [try] to turn a misuse into an error record.  Calls into the
    UI framework, the crawl service and the agent runtime are effects: the
    UI calls are logged in an event trace, the two services are oracles
    that either return a value or raise. *)

From stdpp Require Import base strings gmap list.
From Stdlib Require Import ZArith Ascii.

Set Warnings "-register-all".
Set Default Proof Using "Type".

Open Scope Z_scope.

(** ** Python values *)

Module Py.

(** The JSON-shaped fragment of Python's values.  Floats do not occur in
    any path of the program that is modelled and are left out. *)
Inductive pyval :=
| PNone
| PBool (b : bool)
| PInt (z : Z)
| PStr (s : string)
| PList (l : list pyval)
| PDict (d : gmap string pyval).

(** [BaseException] has two layers that matter to the handlers of the
    program: the instances of [Exception], which [except Exception]
    catches, and the others ([KeyboardInterrupt], [SystemExit], the
    script-control signals of the UI framework), which it lets through. *)
Inductive exn_class := ClsException | ClsBaseOnly.

Record exn := Raise { exn_cls : exn_class; exn_str : string }.

Definition is_Exception (e : exn) : bool :=
  match exn_cls e with ClsException => true | ClsBaseOnly => false end.

Definition AttributeError (msg : string) : exn := Raise ClsException msg.
Definition TypeError (msg : string) : exn := Raise ClsException msg.

Definition type_name (v : pyval) : string :=
  match v with
  | PNone => "NoneType"
  | PBool _ => "bool"
  | PInt _ => "int"
  | PStr _ => "str"
  | PList _ => "list"
  | PDict _ => "dict"
  end.

Definition no_attribute (v : pyval) (attr : string) : exn :=
  AttributeError ("'" +:+ type_name v +:+ "' object has no attribute '" +:+ attr +:+ "'").

(** Truth value testing, as [if], [not] and [and] apply it. *)
Definition truthy (v : pyval) : bool :=
  match v with
  | PNone => false
  | PBool b => b
  | PInt z => negb (z =? 0)
  | PStr s => negb (String.eqb s "")
  | PList l => match l with [] => false | _ => true end
  | PDict d => negb (bool_decide (size d = 0%nat))
  end.

(** [a and b] evaluates to [a] when [a] is falsy and to [b] otherwise. *)
Definition py_and (a b : pyval) : pyval := if truthy a then b else a.

Definition py_not (a : pyval) : pyval := PBool (negb (truthy a)).

(** [v.keys()]: the keys of a dict (here in the order of [map_to_list]),
    an [AttributeError] on anything else. *)
Definition keys (v : pyval) : exn + pyval :=
  match v with
  | PDict d => inr (PList (PStr <$> (map_to_list d).*1))
  | _ => inl (no_attribute v "keys")
  end.

(** [v.get(k, dflt)]. *)
Definition get (v : pyval) (k : string) (dflt : pyval) : exn + pyval :=
  match v with
  | PDict d => inr (default dflt (d !! k))
  | _ => inl (no_attribute v "get")
  end.

(** [k in v] for a string key [k]; only reached on dicts in the program. *)
Definition contains_key (k : string) (v : pyval) : bool :=
  match v with
  | PDict d => bool_decide (is_Some (d !! k))
  | _ => false
  end.

(** [v[k]] on a dict whose key is known to be present; the other cases
    raise. *)
Definition getitem (v : pyval) (k : string) : exn + pyval :=
  match v with
  | PDict d =>
      match d !! k with
      | Some x => inr x
      | None => inl (Raise ClsException ("'" +:+ k +:+ "'"))
      end
  | PStr _ => inl (TypeError "string indices must be integers, not 'str'")
  | PList _ => inl (TypeError "list indices must be integers or slices, not str")
  | _ => inl (TypeError ("'" +:+ type_name v +:+ "' object is not subscriptable"))
  end.

(** [len(v)]. *)
Definition len (v : pyval) : exn + Z :=
  match v with
  | PStr s => inr (Z.of_nat (String.length s))
  | PList l => inr (Z.of_nat (length l))
  | PDict d => inr (Z.of_nat (size d))
  | _ => inl (TypeError ("object of type '" +:+ type_name v +:+ "' has no len()"))
  end.

End Py.

Import Py.

(** ** Effects: the event trace and exceptions *)

(** One record of the progress callback of the crawl service, with the
    two entries [type] and [message] that the callback reads. *)
Record activity := Activity { act_type : string; act_message : string }.

(** An [Agent] of the agent runtime: its name and the names of the tools
    registered with it (the instruction text plays no part below). *)
Record Agent := { name : string; tools : list string }.

(** What the program does to the outside, in the order it does it. *)
Inductive event :=
| StWrite (args : list pyval)
| StError (body : string)
| StWarning (body : string)
| StMarkdown (body : string)
| SpinnerEnter (text : string)
| SpinnerExit (text : string)
| ExpanderEnter (label : string)
| ExpanderExit (label : string)
| StEmpty
| PlaceholderMarkdown (body : string)
| StDownloadButton (label data file_name mime : string)
| FirecrawlAppNew (api_key : string)
| FirecrawlDeepResearch (query : string) (params : pyval)
| RunnerRun (agent : Agent) (input : string).

(** A computation logs events and then returns a value or raises. *)
Definition M (A : Type) : Type := list event * (exn + A).

Definition run_ret {A} (a : A) : M A := ([], inr a).

Definition run_bind {A B} (k : A → M B) (m : M A) : M B :=
  match m with
  | (tr, inl e) => (tr, inl e)
  | (tr, inr a) => let '(tr', r) := k a in (tr ++ tr', r)
  end.

#[global] Instance M_ret : MRet M := @run_ret.
#[global] Instance M_bind : MBind M := @run_bind.

Definition emit (ev : event) : M () := ([ev], inr ()).

(** A pure operation that can fail, run as a computation. *)
Definition lift {A} (r : exn + A) : M A := ([], r).

(** [try: body / except Exception as e: handler e].  An exception that is
    not an instance of [Exception] goes through. *)
Definition try_except {A} (body : M A) (handler : exn → M A) : M A :=
  match body with
  | (tr, inr a) => (tr, inr a)
  | (tr, inl e) =>
      if is_Exception e
      then let '(tr', r) := handler e in (tr ++ tr', r)
      else (tr, inl e)
  end.

(** [with st.spinner(text): body]: the spinner is taken down also when the
    body raises. *)
Definition with_spinner {A} (text : string) (body : M A) : M A :=
  let '(tr, r) := body in (SpinnerEnter text :: tr ++ [SpinnerExit text], r).

(** [with st.expander(label): body]. *)
Definition with_expander {A} (label : string) (body : M A) : M A :=
  let '(tr, r) := body in (ExpanderEnter label :: tr ++ [ExpanderExit label], r).

Definition events {A} (m : M A) : list event := m.1.
Definition outcome {A} (m : M A) : exn + A := m.2.

Definition st_write (args : list pyval) : M () := emit (StWrite args).
Definition st_error (body : string) : M () := emit (StError body).
Definition st_warning (body : string) : M () := emit (StWarning body).
Definition st_markdown (body : string) : M () := emit (StMarkdown body).

(** ** The outside world *)

(** The services the program calls, fixed for one run: the key kept in the
    session, the constructor of the crawl client, the crawl service (the
    activities it reports through the callback, then its response or the
    exception it raises) and the agent runtime. *)
Record world := {
  session_firecrawl_api_key : string;
  FirecrawlApp : string → exn + ();
  firecrawl_deep_research : string → pyval → list activity * (exn + pyval);
  Runner_run : Agent → string → exn + string
}.

(** ** The research tool adapter *)

Section Adapter.

Variable w : world.

Definition new_FirecrawlApp (api_key : string) : M () :=
  emit (FirecrawlAppNew api_key);; lift (FirecrawlApp w api_key).

(** The blocking call of the crawl service: it feeds each activity to the
    callback, in order, and then returns its response or raises. *)
Definition app_deep_research (query : string) (params : pyval)
    (on_activity : activity → M ()) : M pyval :=
  emit (FirecrawlDeepResearch query params);;
  let '(acts, r) := firecrawl_deep_research w query params in
  foldr (λ a k, on_activity a;; k) (mret ()) acts;;
  lift r.

Definition on_activity (a : activity) : M () :=
  st_write [PStr ("[" +:+ act_type a +:+ "] " +:+ act_message a)].

Definition no_final_analysis : string := "No final analysis available".

Definition success_record (final_analysis : pyval) (source_count : Z)
    (sources : pyval) : gmap string pyval :=
  <["success" := PBool true]>
    (<["final_analysis" := final_analysis]>
       (<["source_count" := PInt source_count]>
          (<["sources" := sources]> ∅))).

Definition error_record (e : exn) : gmap string pyval :=
  <["error" := PStr (exn_str e)]> (<["success" := PBool false]> ∅).

Definition request_params (max_depth time_limit max_urls : Z) : pyval :=
  PDict (<["maxDepth" := PInt max_depth]>
           (<["timeLimit" := PInt time_limit]>
              (<["maxUrls" := PInt max_urls]> ∅))).

Definition deep_research (query : string) (max_depth time_limit max_urls : Z)
    : M (gmap string pyval) :=
  try_except
    (new_FirecrawlApp (session_firecrawl_api_key w);;
     let params := request_params max_depth time_limit max_urls in
     with_spinner "Performing deep research... This may take a while..."
       (result ← app_deep_research query params on_activity;
        ks ← lift (keys result);
        st_write [PStr "Result structure:"; ks];;
        (if contains_key "data" result
         then d ← lift (getitem result "data");
              dks ← lift (keys d);
              st_write [PStr "Data keys:"; dks]
         else mret ());;
        data ← lift (get result "data" (PDict ∅));
        final_analysis ← lift (get data "final_analysis" (PStr no_final_analysis));
        data' ← lift (get result "data" (PDict ∅));
        sources ← lift (get data' "sources" (PList []));
        n ← lift (len sources);
        mret (success_record final_analysis n sources)))
    (λ e, st_error ("Deep research error: " +:+ exn_str e);;
          mret (error_record e)).

End Adapter.

(** ** The two agents and the pipeline runner *)

Definition research_agent : Agent :=
  {| name := "research_agent"; tools := ["deep_research"] |}.

Definition elaborative_agent : Agent :=
  {| name := "elaborative_agent"; tools := [] |}.

Definition nl : string := String (Ascii.ascii_of_nat 10) EmptyString.

(** The f-string of [run_research_process], line by line. *)
Definition elaboration_input (topic initial_report : string) : string :=
  " " +:+ nl +:+
  "        RESEARCH TOPIC " +:+ topic +:+ nl +:+
  "        INITIAL RESEARCH REPORT:" +:+ nl +:+
  "        " +:+ initial_report +:+ nl +:+
  "        Please enhance the report with additional info, examples and case studies" +:+ nl +:+
  "        and deeper insights while maintaining its academic rigor and factual accuracy." +:+ nl.

Section Pipeline.

Variable w : world.

(** [await Runner.run(agent, input)] followed by [.final_output]. *)
Definition runner_run (agent : Agent) (input : string) : M string :=
  emit (RunnerRun agent input);; lift (Runner_run w agent input).

Definition run_research_process (topic : string) : M string :=
  initial_report ←
    with_spinner "Agent1 Conducting initial research..."
      (runner_run research_agent topic);
  with_expander "Viewing Initial Research Report (Agent 1 Output)"
    (st_markdown initial_report);;
  input ←
    with_spinner "Agent2 Enhancing the research report..."
      (mret (elaboration_input topic initial_report));
  enhanced_report ← runner_run elaborative_agent input;
  mret enhanced_report.

End Pipeline.

(** ** The presentation layer: the button and its handler *)

(** [s.replace(old, new)]: the occurrences of [old] are replaced from left
    to right without overlap; [skip] counts the characters of the matched
    occurrence that are still to be passed over. *)
Fixpoint replace_from (old new : string) (skip : nat) (s : string) : string :=
  match s with
  | EmptyString => EmptyString
  | String c s' =>
      match skip with
      | S k => replace_from old new k s'
      | O =>
          if String.prefix old s
          then new +:+ replace_from old new (String.length old - 1) s'
          else String c (replace_from old new 0 s')
      end
  end.

(** With an empty pattern Python puts [new] before every character and at
    the end. *)
Fixpoint replace_empty (new s : string) : string :=
  match s with
  | EmptyString => new
  | String c s' => new +:+ String c (replace_empty new s')
  end.

Definition replace (old new s : string) : string :=
  match old with
  | EmptyString => replace_empty new s
  | _ => replace_from old new 0 s
  end.

Definition file_name (research_topic : string) : string :=
  replace " " "_" research_topic +:+ "_report.md".

(** The [disabled] argument of the button. *)
Definition button_disabled (google_api_key firecrawl_api_key research_topic : string)
    : bool :=
  truthy (py_not (py_and (py_and (PStr google_api_key) (PStr firecrawl_api_key))
                         (PStr research_topic))).

Definition button_enabled (google_api_key firecrawl_api_key research_topic : string)
    : bool :=
  negb (button_disabled google_api_key firecrawl_api_key research_topic).

(** [st.button] answers [True] in the run that follows a click, and a
    disabled button takes no click. *)
Definition st_button (disabled clicked : bool) : bool := clicked && negb disabled.

(** The guards of the two warning branches, as written. *)
Definition keys_guard (google_api_key firecrawl_api_key : string) : bool :=
  truthy (py_and (py_not (PStr google_api_key)) (PStr firecrawl_api_key)).

Definition topic_guard (research_topic : string) : bool :=
  truthy (py_not (PStr research_topic)).

Section Presentation.

Variable w : world.

(** The [try] block of the handler. *)
Definition run_and_render (research_topic : string) : M () :=
  emit StEmpty;;
  enhanced_report ← run_research_process w research_topic;
  emit (PlaceholderMarkdown "## Enhanced Research Report (Multi-Agent Output)");;
  emit (PlaceholderMarkdown enhanced_report);;
  emit (StDownloadButton "Download Report" enhanced_report
          (file_name research_topic) "text/markdown").

(** The body of [if st.button(...):]. *)
Definition handler (google_api_key firecrawl_api_key research_topic : string) : M () :=
  if keys_guard google_api_key firecrawl_api_key
  then st_warning "Please enter your Google or Firecrawl API Key."
  else if topic_guard research_topic
  then st_warning "Please enter a research topic."
  else try_except (run_and_render research_topic)
         (λ e, st_error ("An error occurred: " +:+ exn_str e)).

(** One run of the script from the button on. *)
Definition action (google_api_key firecrawl_api_key research_topic : string)
    (clicked : bool) : M () :=
  if st_button (button_disabled google_api_key firecrawl_api_key research_topic) clicked
  then handler google_api_key firecrawl_api_key research_topic
  else mret ().

End Presentation.

(** ** Auxiliary definitions for the statements *)

(** What the adapter does with a response once the service has returned
    it: the rest of the [with] block. *)
Definition after_response (result : pyval) : M (gmap string pyval) :=
  ks ← lift (keys result);
  st_write [PStr "Result structure:"; ks];;
  (if contains_key "data" result
   then d ← lift (getitem result "data");
        dks ← lift (keys d);
        st_write [PStr "Data keys:"; dks]
   else mret ());;
  data ← lift (get result "data" (PDict ∅));
  final_analysis ← lift (get data "final_analysis" (PStr no_final_analysis));
  data' ← lift (get result "data" (PDict ∅));
  sources ← lift (get data' "sources" (PList []));
  n ← lift (len sources);
  mret (success_record final_analysis n sources).

(** The [except] clause of the adapter. *)
Definition on_exception (e : exn) : M (gmap string pyval) :=
  st_error ("Deep research error: " +:+ exn_str e);; mret (error_record e).

(** The handler turns any instance of [Exception] into the error record
    and lets the rest through. *)
Definition caught (e : exn) : exn + gmap string pyval :=
  if is_Exception e then inr (error_record e) else inl e.

(** The [try] block of the adapter. *)
Definition try_block (w : world) (query : string)
    (max_depth time_limit max_urls : Z) : M (gmap string pyval) :=
  new_FirecrawlApp w (session_firecrawl_api_key w);;
  with_spinner "Performing deep research... This may take a while..."
    (app_deep_research w query (request_params max_depth time_limit max_urls)
       on_activity ≫= after_response).

(** The shape of a response the adapter can normalise: a dict whose
    [data] entry, when there is one, is a dict whose [sources] entry, when
    there is one, is a list. *)
Definition well_shaped (result : pyval) : bool :=
  match result with
  | PDict d =>
      match d !! "data" with
      | None => true
      | Some (PDict dd) =>
          match dd !! "sources" with
          | None | Some (PList _) => true
          | Some _ => false
          end
      | Some _ => false
      end
  | _ => false
  end.

(** [data.k] of a response, when both [data] and [k] are there. *)
Definition data_field (result : pyval) (k : string) : option pyval :=
  match result with
  | PDict d =>
      match d !! "data" with
      | Some (PDict dd) => dd !! k
      | _ => None
      end
  | _ => None
  end.

Definition response_final_analysis (result : pyval) : pyval :=
  default (PStr no_final_analysis) (data_field result "final_analysis").

Definition response_sources (result : pyval) : list pyval :=
  match data_field result "sources" with
  | Some (PList l) => l
  | _ => []
  end.

(** The invocations of the agent runtime in a trace, in order. *)
Definition runner_calls (tr : list event) : list (Agent * string) :=
  omap (λ ev, match ev with RunnerRun a i => Some (a, i) | _ => None end) tr.

(** Whether an event belongs to the rendering of the final report: the two
    writes into the placeholder and the download control. *)
Definition is_report_output (ev : event) : bool :=
  match ev with
  | PlaceholderMarkdown _ | StDownloadButton _ _ _ _ => true
  | _ => false
  end.

Definition is_error_message (ev : event) : bool :=
  match ev with StError _ => true | _ => false end.

(** [sub] occurs in [s] as it stands. *)
Definition occurs_in (sub s : string) : Prop :=
  ∃ before after, s = before +:+ sub +:+ after.

(** The character-by-character reading of a one-character replacement. *)
Fixpoint map_chars (f : Ascii.ascii → Ascii.ascii) (s : string) : string :=
  match s with
  | EmptyString => EmptyString
  | String c s' => String (f c) (map_chars f s')
  end.

Definition space_to_underscore (c : Ascii.ascii) : Ascii.ascii :=
  if Ascii.eqb c " " then "_"%char else c.

(** A world built from stubs: the constructor's result, the crawl
    service's behaviour and what each of the two agents answers. *)
Definition stub_world (ctor : exn + ()) (crawl : list activity * (exn + pyval))
    (agent1 agent2 : exn + string) : world :=
  {| session_firecrawl_api_key := "fc-key";
     FirecrawlApp := λ _, ctor;
     firecrawl_deep_research := λ _ _, crawl;
     Runner_run := λ a _, if String.eqb (name a) "research_agent" then agent1 else agent2 |}.

Definition KeyboardInterrupt : exn := Raise ClsBaseOnly "".

(** ** The session state and the sidebar *)

(** The top of the script, run again at every interaction:
    [st.session_state] outlives the runs, the two text inputs do not. *)

(** [if k not in st.session_state: st.session_state.k = ""], for the two
    keys. *)
Definition init_session_state (ss : gmap string pyval) : gmap string pyval :=
  let ss1 :=
    if bool_decide (is_Some (ss !! "google_api_key")) then ss
    else <["google_api_key" := PStr ""]> ss in
  if bool_decide (is_Some (ss1 !! "firecrawl_api_key")) then ss1
  else <["firecrawl_api_key" := PStr ""]> ss1.

(** The two assignments at the end of the sidebar block: a field is stored
    only when it is not empty. *)
Definition sidebar (google_api_key firecrawl_api_key : string)
    (ss : gmap string pyval) : gmap string pyval :=
  let ss1 :=
    if truthy (PStr google_api_key)
    then <["google_api_key" := PStr google_api_key]> ss else ss in
  if truthy (PStr firecrawl_api_key)
  then <["firecrawl_api_key" := PStr firecrawl_api_key]> ss1 else ss1.

(** [st.session_state.k]: an [AttributeError] when the key is missing (the
    wording of its message is the framework's and is not relied on). *)
Definition session_attr (ss : gmap string pyval) (k : string) : exn + pyval :=
  match ss !! k with
  | Some v => inr v
  | None =>
      inl (AttributeError
             ("st.session_state has no attribute " +:+ k))
  end.

(** The session state as the rest of the script finds it. *)
Definition script_session (google_api_key firecrawl_api_key : string)
    (ss : gmap string pyval) : gmap string pyval :=
  sidebar google_api_key firecrawl_api_key (init_session_state ss).

(** The [api_key] argument of [AsyncOpenAI]. *)
Definition external_client_api_key (ss : gmap string pyval) : exn + pyval :=
  session_attr ss "google_api_key".

(** ** Reading a trace *)

Definition is_crawl_call (ev : event) : bool :=
  match ev with FirecrawlDeepResearch _ _ => true | _ => false end.



Definition is_dict (v : pyval) : bool :=
  match v with PDict _ => true | _ => false end.

(** The lines the progress callback writes for a list of activities. *)
Definition activity_lines (acts : list activity) : list event :=
  (λ a, StWrite [PStr ("[" +:+ act_type a +:+ "] " +:+ act_message a)]) <$> acts.

Definition spinner_text : string :=
  "Performing deep research... This may take a while...".

Fixpoint contains_char (a : ascii) (s : string) : bool :=
  match s with
  | EmptyString => false
  | String c s' => Ascii.eqb c a || contains_char a s'
  end.

(** * Properties *)

(** ** Reading the outcome and the events of a computation *)

Section MonadFacts.

Context {A B : Type}.

Lemma outcome_bind (m : M A) (k : A → M B) :
  outcome (m ≫= k) =
  match outcome m with inl e => inl e | inr a => outcome (k a) end.
Proof.
  destruct m as [tr [e|a]]; [reflexivity|].
  unfold mbind, M_bind, run_bind, outcome; simpl. by destruct (k a).
Qed.

Lemma events_bind (m : M A) (k : A → M B) :
  events (m ≫= k) =
  events m ++ match outcome m with inl _ => [] | inr a => events (k a) end.
Proof.
  destruct m as [tr [e|a]]; unfold mbind, M_bind, run_bind, events, outcome; simpl.
  - by rewrite app_nil_r.
  - by destruct (k a).
Qed.

Lemma outcome_try_except (body : M A) (h : exn → M A) :
  outcome (try_except body h) =
  match outcome body with
  | inr a => inr a
  | inl e => if is_Exception e then outcome (h e) else inl e
  end.
Proof.
  destruct body as [tr [e|a]]; unfold try_except, outcome; simpl; [|done].
  destruct (is_Exception e); [|done]. by destruct (h e).
Qed.

Lemma events_try_except (body : M A) (h : exn → M A) :
  events (try_except body h) =
  events body ++
  match outcome body with
  | inr _ => []
  | inl e => if is_Exception e then events (h e) else []
  end.
Proof.
  destruct body as [tr [e|a]]; unfold try_except, events, outcome; simpl.
  - destruct (is_Exception e); [by destruct (h e) | by rewrite app_nil_r].
  - by rewrite app_nil_r.
Qed.

Lemma outcome_with_spinner text (m : M A) : outcome (with_spinner text m) = outcome m.
Proof. by destruct m. Qed.

Lemma events_with_spinner text (m : M A) :
  events (with_spinner text m) = SpinnerEnter text :: events m ++ [SpinnerExit text].
Proof. by destruct m. Qed.

Lemma outcome_with_expander label (m : M A) : outcome (with_expander label m) = outcome m.
Proof. by destruct m. Qed.

Lemma events_with_expander label (m : M A) :
  events (with_expander label m) = ExpanderEnter label :: events m ++ [ExpanderExit label].
Proof. by destruct m. Qed.

Lemma outcome_lift (r : exn + A) : outcome (lift r) = r.
Proof. done. Qed.

Lemma events_lift (r : exn + A) : events (lift r) = [].
Proof. done. Qed.

Lemma outcome_ret (a : A) : outcome (mret a : M A) = inr a.
Proof. done. Qed.

Lemma events_ret (a : A) : events (mret a : M A) = [].
Proof. done. Qed.

End MonadFacts.

Lemma outcome_emit ev : outcome (emit ev) = inr ().
Proof. done. Qed.

Lemma events_emit ev : events (emit ev) = [ev].
Proof. done. Qed.

Ltac outcome_simpl :=
  repeat first
    [ rewrite outcome_bind | rewrite outcome_try_except
    | rewrite outcome_with_spinner | rewrite outcome_with_expander
    | rewrite outcome_lift | rewrite outcome_ret | rewrite outcome_emit ].

(** One step through a chain of value operations. *)
Ltac value_step :=
  progress (outcome_simpl;
            cbn [keys get getitem len default from_option id]).


(** ** The adapter *)

Section AdapterFacts.

Variable w : world.

Lemma deep_research_unfold query max_depth time_limit max_urls :
  deep_research w query max_depth time_limit max_urls =
  try_except (try_block w query max_depth time_limit max_urls) on_exception.
Proof. reflexivity. Qed.

Lemma callbacks_outcome (acts : list activity) :
  outcome (foldr (λ a k, on_activity a;; k) (mret ()) acts) = inr ().
Proof.
  induction acts as [|a acts IH]; [done|].
  cbn [foldr]. rewrite outcome_bind. exact IH.
Qed.

Lemma callbacks_events (acts : list activity) :
  events (foldr (λ a k, on_activity a;; k) (mret ()) acts) =
  (λ a, StWrite [PStr ("[" +:+ act_type a +:+ "] " +:+ act_message a)]) <$> acts.
Proof.
  induction acts as [|a acts IH]; [done|].
  cbn [foldr]. rewrite events_bind, IH. reflexivity.
Qed.

Lemma app_deep_research_outcome query params :
  outcome (app_deep_research w query params on_activity) =
  (firecrawl_deep_research w query params).2.
Proof.
  unfold app_deep_research. rewrite outcome_bind, outcome_emit.
  destruct (firecrawl_deep_research w query params) as [acts r].
  by rewrite outcome_bind, callbacks_outcome.
Qed.

Lemma try_block_outcome query max_depth time_limit max_urls :
  outcome (try_block w query max_depth time_limit max_urls) =
  match FirecrawlApp w (session_firecrawl_api_key w) with
  | inl e => inl e
  | inr _ =>
      match (firecrawl_deep_research w query
               (request_params max_depth time_limit max_urls)).2 with
      | inl e => inl e
      | inr result => outcome (after_response result)
      end
  end.
Proof.
  unfold try_block, new_FirecrawlApp.
  rewrite !outcome_bind, outcome_emit, outcome_lift.
  destruct (FirecrawlApp w _) as [e|[]]; [done|].
  by rewrite outcome_with_spinner, outcome_bind, app_deep_research_outcome.
Qed.

Lemma deep_research_outcome query max_depth time_limit max_urls :
  outcome (deep_research w query max_depth time_limit max_urls) =
  match outcome (try_block w query max_depth time_limit max_urls) with
  | inl e => caught e
  | inr rec => inr rec
  end.
Proof. by rewrite deep_research_unfold, outcome_try_except. Qed.

(** The operations on values raise instances of [Exception] only. *)
Lemma after_response_raises result e :
  outcome (after_response result) = inl e → is_Exception e = true.
Proof.
  unfold after_response. outcome_simpl.
  destruct result as [| | | | |d]; simpl; try (intros [= <-]; reflexivity).
  destruct (bool_decide (is_Some (d !! "data"))) eqn:Hin.
  - apply bool_decide_eq_true in Hin as [x Hx].
    outcome_simpl. rewrite Hx; simpl.
    destruct x as [| | | | |dd]; simpl; try (intros [= <-]; reflexivity).
    outcome_simpl.
    destruct (default (PList []) (dd !! "sources")); simpl; intros [= <-] || discriminate; reflexivity.
  - apply bool_decide_eq_false in Hin.
    destruct (d !! "data") as [x|] eqn:Hx; [destruct Hin; eauto|]; simpl.
    outcome_simpl. rewrite lookup_empty. simpl. discriminate.
Qed.

Lemma after_response_well_shaped result :
  well_shaped result = true →
  outcome (after_response result) =
  inr (success_record (response_final_analysis result)
         (Z.of_nat (length (response_sources result)))
         (PList (response_sources result))).
Proof.
  unfold after_response, response_final_analysis, response_sources, data_field.
  destruct result as [| | | | |d]; try discriminate.
  cbn [well_shaped]. unfold st_write.
  destruct (d !! "data") as [x|] eqn:Hx.
  - destruct x as [| | | | |dd]; try discriminate.
    cbn [contains_key]. rewrite bool_decide_eq_true_2 by eauto.
    repeat value_step. rewrite Hx. repeat value_step.
    destruct (dd !! "sources") as [[| | | |l|]|]; try discriminate;
      intros _; repeat value_step; reflexivity.
  - intros _. cbn [contains_key]. rewrite bool_decide_eq_false_2
      by (rewrite Hx; intros [? [=]]).
    repeat value_step. rewrite Hx. repeat value_step.
    rewrite !lookup_empty. repeat value_step. reflexivity.
Qed.

Lemma success_record_lookups fa n srcs :
  success_record fa n srcs !! "success" = Some (PBool true) ∧
  success_record fa n srcs !! "final_analysis" = Some fa ∧
  success_record fa n srcs !! "sources" = Some srcs ∧
  success_record fa n srcs !! "source_count" = Some (PInt n) ∧
  success_record fa n srcs !! "error" = None.
Proof. repeat split; reflexivity. Qed.

Lemma error_record_lookups e :
  error_record e !! "success" = Some (PBool false) ∧
  error_record e !! "error" = Some (PStr (exn_str e)) ∧
  error_record e !! "final_analysis" = None.
Proof. repeat split; reflexivity. Qed.

Lemma outcome_bind_inr {A B} (m : M A) (k : A → M B) b :
  outcome (m ≫= k) = inr b → ∃ a, outcome m = inr a ∧ outcome (k a) = inr b.
Proof.
  rewrite outcome_bind. destruct (outcome m) as [e|a]; [discriminate|]. eauto.
Qed.

(** Whatever the block after the call returns is a success record. *)
Lemma after_response_returns result rec :
  outcome (after_response result) = inr rec →
  ∃ fa n srcs, rec = success_record fa n srcs.
Proof.
  unfold after_response. intros H.
  repeat (apply outcome_bind_inr in H as (? & _ & H)).
  injection H as <-. eauto.
Qed.

(** The adapter raises nothing that its handler is written to catch. *)
Lemma deep_research_raises query max_depth time_limit max_urls e :
  outcome (deep_research w query max_depth time_limit max_urls) = inl e →
  is_Exception e = false.
Proof.
  rewrite deep_research_outcome.
  destruct (outcome (try_block _ _ _ _ _)) as [e'|rec]; [|discriminate].
  unfold caught. destruct (is_Exception e') eqn:He'; [discriminate|].
  by intros [= <-].
Qed.

Lemma deep_research_returns query max_depth time_limit max_urls rec :
  outcome (deep_research w query max_depth time_limit max_urls) = inr rec →
  (∃ fa n srcs, rec = success_record fa n srcs) ∨ (∃ e, rec = error_record e).
Proof.
  rewrite deep_research_outcome, try_block_outcome.
  destruct (FirecrawlApp w _) as [e|[]].
  { unfold caught. destruct (is_Exception e); [|discriminate].
    intros [= <-]. right. eauto. }
  destruct ((firecrawl_deep_research w _ _).2) as [e|result].
  { unfold caught. destruct (is_Exception e); [|discriminate].
    intros [= <-]. right. eauto. }
  destruct (outcome (after_response result)) as [e|rec'] eqn:Hafter.
  { unfold caught. destruct (is_Exception e); [|discriminate].
    intros [= <-]. right. eauto. }
  intros [= <-]. left. by eapply after_response_returns.
Qed.

Lemma deep_research_on_response query max_depth time_limit max_urls acts result :
  FirecrawlApp w (session_firecrawl_api_key w) = inr () →
  firecrawl_deep_research w query (request_params max_depth time_limit max_urls)
    = (acts, inr result) →
  well_shaped result = true →
  outcome (deep_research w query max_depth time_limit max_urls) =
  inr (success_record (response_final_analysis result)
         (Z.of_nat (length (response_sources result)))
         (PList (response_sources result))).
Proof.
  intros Hctor Hcall Hshape.
  rewrite deep_research_outcome, try_block_outcome, Hctor, Hcall. cbn [snd].
  by rewrite (after_response_well_shaped _ Hshape).
Qed.

Lemma deep_research_on_exception query max_depth time_limit max_urls acts e :
  FirecrawlApp w (session_firecrawl_api_key w) = inr () →
  firecrawl_deep_research w query (request_params max_depth time_limit max_urls)
    = (acts, inl e) →
  outcome (deep_research w query max_depth time_limit max_urls) = caught e.
Proof.
  intros Hctor Hcall.
  by rewrite deep_research_outcome, try_block_outcome, Hctor, Hcall.
Qed.

End AdapterFacts.

(** ** The claims about the adapter *)

(** C1, as amended.  When the crawl service returns a response that is a
    dict whose [data] entry, if present, is a dict and whose [sources]
    entry, if present, is a list, the adapter returns a record with
    [success] true, [final_analysis] equal to [data.final_analysis] (the
    placeholder when absent), [sources] equal to [data.sources] (the empty
    list when absent) and [source_count] equal to the length of that
    list. *)
Theorem deep_research_success (w : world) (query : string)
    (max_depth time_limit max_urls : Z) (acts : list activity) (result : pyval) :
  FirecrawlApp w (session_firecrawl_api_key w) = inr () →
  firecrawl_deep_research w query (request_params max_depth time_limit max_urls)
    = (acts, inr result) →
  well_shaped result = true →
  ∃ rec,
    outcome (deep_research w query max_depth time_limit max_urls) = inr rec ∧
    rec !! "success" = Some (PBool true) ∧
    rec !! "final_analysis" = Some (response_final_analysis result) ∧
    rec !! "sources" = Some (PList (response_sources result)) ∧
    rec !! "source_count" = Some (PInt (Z.of_nat (length (response_sources result)))).
Proof.
  intros Hctor Hcall Hshape. eexists. split.
  - by eapply deep_research_on_response.
  - repeat split; reflexivity.
Qed.

(** The stub of the specification: [{data: {final_analysis: "X",
    sources: [a, b, c]}}]. *)
Lemma deep_research_success_witness :
  let result :=
    PDict {[ "data" :=
      PDict (<["final_analysis" := PStr "X"]>
               {[ "sources" := PList [PStr "a"; PStr "b"; PStr "c"] ]}) ]} in
  let w := stub_world (inr ()) ([], inr result) (inr "") (inr "") in
  ∃ rec,
    outcome (deep_research w "AI" 3 180 10) = inr rec ∧
    rec !! "success" = Some (PBool true) ∧
    rec !! "final_analysis" = Some (PStr "X") ∧
    rec !! "sources" = Some (PList [PStr "a"; PStr "b"; PStr "c"]) ∧
    rec !! "source_count" = Some (PInt 3).
Proof.
  intros result w.
  exact (deep_research_success w "AI" 3 180 10 [] result
           eq_refl eq_refl eq_refl).
Defined.

(** C1, as stated, fails: on the response [{data: None}] the debug line
    [result['data'].keys()] raises inside the [try], and the adapter
    answers with the error record. *)
Lemma deep_research_null_data :
  let result := PDict {[ "data" := PNone ]} in
  let w := stub_world (inr ()) ([], inr result) (inr "") (inr "") in
  FirecrawlApp w (session_firecrawl_api_key w) = inr () ∧
  firecrawl_deep_research w "AI" (request_params 3 180 10) = ([], inr result) ∧
  outcome (deep_research w "AI" 3 180 10)
    = inr (error_record (no_attribute PNone "keys")) ∧
  ¬ ∃ rec, outcome (deep_research w "AI" 3 180 10) = inr rec ∧
           rec !! "success" = Some (PBool true).
Proof.
  intros result w.
  assert (outcome (deep_research w "AI" 3 180 10)
            = inr (error_record (no_attribute PNone "keys"))) as Hrun
    by (vm_compute; reflexivity).
  split; [reflexivity|]. split; [reflexivity|]. split; [exact Hrun|].
  intros (rec & Hrec & Hsucc). rewrite Hrun in Hrec. injection Hrec as <-.
  vm_compute in Hsucc. discriminate.
Qed.

(** C2.  On the empty response [{}] the adapter fills in the defaults: it
    returns [success] true, the placeholder analysis, a count of 0 and the
    empty list of sources, and no [error] entry. *)
Theorem deep_research_empty_response (w : world) (query : string)
    (max_depth time_limit max_urls : Z) (acts : list activity) :
  FirecrawlApp w (session_firecrawl_api_key w) = inr () →
  firecrawl_deep_research w query (request_params max_depth time_limit max_urls)
    = (acts, inr (PDict ∅)) →
  ∃ rec,
    outcome (deep_research w query max_depth time_limit max_urls) = inr rec ∧
    rec !! "success" = Some (PBool true) ∧
    rec !! "final_analysis" = Some (PStr "No final analysis available") ∧
    rec !! "source_count" = Some (PInt 0) ∧
    rec !! "sources" = Some (PList []) ∧
    rec !! "error" = None.
Proof.
  intros Hctor Hcall. eexists. split.
  - by eapply deep_research_on_response.
  - repeat split; reflexivity.
Qed.

Lemma deep_research_empty_response_witness :
  let w := stub_world (inr ()) ([Activity "search" "start"], inr (PDict ∅))
             (inr "") (inr "") in
  ∃ rec,
    outcome (deep_research w "AI" 3 180 10) = inr rec ∧
    rec !! "success" = Some (PBool true) ∧
    rec !! "final_analysis" = Some (PStr "No final analysis available") ∧
    rec !! "source_count" = Some (PInt 0) ∧
    rec !! "sources" = Some (PList []) ∧
    rec !! "error" = None.
Proof.
  intros w.
  exact (deep_research_empty_response w "AI" 3 180 10
           [Activity "search" "start"] eq_refl eq_refl).
Defined.

(** C3, as amended.  When the crawl service raises an instance of
    [Exception], the adapter does not let it out: it returns the record
    with [success] false and [error] equal to the message of the
    exception; and no call of the adapter raises an instance of
    [Exception]. *)
Theorem deep_research_catches_Exception (w : world) (query : string)
    (max_depth time_limit max_urls : Z) (acts : list activity) (e : exn) :
  FirecrawlApp w (session_firecrawl_api_key w) = inr () →
  firecrawl_deep_research w query (request_params max_depth time_limit max_urls)
    = (acts, inl e) →
  is_Exception e = true →
  (∃ rec,
     outcome (deep_research w query max_depth time_limit max_urls) = inr rec ∧
     rec !! "success" = Some (PBool false) ∧
     rec !! "error" = Some (PStr (exn_str e))) ∧
  (∀ w' query' max_depth' time_limit' max_urls' e',
     outcome (deep_research w' query' max_depth' time_limit' max_urls') = inl e' →
     is_Exception e' = false).
Proof.
  intros Hctor Hcall He. split.
  - exists (error_record e). split; [|split; reflexivity].
    rewrite (deep_research_on_exception _ _ _ _ _ _ _ Hctor Hcall).
    unfold caught. by rewrite He.
  - intros w' ? ? ? ? e'. apply deep_research_raises.
Qed.

Lemma deep_research_catches_Exception_witness :
  let e := Raise ClsException "Deep research job failed" in
  let w := stub_world (inr ()) ([], inl e) (inr "") (inr "") in
  (∃ rec,
     outcome (deep_research w "AI" 3 180 10) = inr rec ∧
     rec !! "success" = Some (PBool false) ∧
     rec !! "error" = Some (PStr "Deep research job failed")) ∧
  (∀ w' query' max_depth' time_limit' max_urls' e',
     outcome (deep_research w' query' max_depth' time_limit' max_urls') = inl e' →
     is_Exception e' = false).
Proof.
  intros e w.
  exact (deep_research_catches_Exception w "AI" 3 180 10 [] e
           eq_refl eq_refl eq_refl).
Defined.

(** C3, as stated, fails: an exception outside [Exception], such as
    [KeyboardInterrupt], passes the [except Exception] clause and leaves
    the adapter. *)
Lemma deep_research_KeyboardInterrupt :
  let w := stub_world (inr ()) ([], inl KeyboardInterrupt) (inr "") (inr "") in
  FirecrawlApp w (session_firecrawl_api_key w) = inr () ∧
  firecrawl_deep_research w "AI" (request_params 3 180 10)
    = ([], inl KeyboardInterrupt) ∧
  outcome (deep_research w "AI" 3 180 10) = inl KeyboardInterrupt ∧
  ¬ ∃ rec, outcome (deep_research w "AI" 3 180 10) = inr rec.
Proof.
  intros w.
  assert (outcome (deep_research w "AI" 3 180 10) = inl KeyboardInterrupt)
    as Hrun by (vm_compute; reflexivity).
  split; [reflexivity|]. split; [reflexivity|]. split; [exact Hrun|].
  intros (rec & Hrec). rewrite Hrun in Hrec. discriminate.
Qed.

(** C4.  Every record the adapter returns carries exactly one of
    [final_analysis] and [error]: with [success] true it has
    [final_analysis] and no [error], with [success] false it has [error]
    and no [final_analysis]. *)
Theorem deep_research_record_invariant (w : world) (query : string)
    (max_depth time_limit max_urls : Z) (rec : gmap string pyval) :
  outcome (deep_research w query max_depth time_limit max_urls) = inr rec →
  (rec !! "success" = Some (PBool true) ∧
   is_Some (rec !! "final_analysis") ∧ rec !! "error" = None) ∨
  (rec !! "success" = Some (PBool false) ∧
   is_Some (rec !! "error") ∧ rec !! "final_analysis" = None).
Proof.
  intros Hrun.
  destruct (deep_research_returns _ _ _ _ _ _ Hrun)
    as [(fa & n & srcs & ->)|(e & ->)].
  - left. split; [reflexivity|]. split; [eexists|]; reflexivity.
  - right. split; [reflexivity|]. split; [eexists|]; reflexivity.
Qed.

Lemma deep_research_record_invariant_witness :
  let w := stub_world (inl (Raise ClsException "No API key provided"))
             ([], inr (PDict ∅)) (inr "") (inr "") in
  let rec := error_record (Raise ClsException "No API key provided") in
  (rec !! "success" = Some (PBool true) ∧
   is_Some (rec !! "final_analysis") ∧ rec !! "error" = None) ∨
  (rec !! "success" = Some (PBool false) ∧
   is_Some (rec !! "error") ∧ rec !! "final_analysis" = None).
Proof.
  intros w rec.
  exact (deep_research_record_invariant w "AI" 3 180 10 rec eq_refl).
Defined.

(** ** The pipeline runner *)

Section PipelineFacts.

Variable w : world.

Lemma runner_run_outcome agent input :
  outcome (runner_run w agent input) = Runner_run w agent input.
Proof. unfold runner_run. by rewrite outcome_bind, outcome_emit. Qed.

Lemma run_research_process_outcome topic :
  outcome (run_research_process w topic) =
  match Runner_run w research_agent topic with
  | inl e => inl e
  | inr initial_report =>
      Runner_run w elaborative_agent (elaboration_input topic initial_report)
  end.
Proof.
  unfold run_research_process.
  rewrite outcome_bind, outcome_with_spinner, runner_run_outcome.
  destruct (Runner_run w research_agent topic) as [e|r1]; [done|].
  rewrite outcome_bind, outcome_with_expander. unfold st_markdown.
  rewrite outcome_emit, outcome_bind, outcome_with_spinner, outcome_ret.
  rewrite outcome_bind, runner_run_outcome.
  by destruct (Runner_run w elaborative_agent _).
Qed.

(** The whole trace of a run, by what agent 1 answers. *)
Lemma run_research_process_events topic :
  events (run_research_process w topic) =
  [SpinnerEnter "Agent1 Conducting initial research...";
   RunnerRun research_agent topic;
   SpinnerExit "Agent1 Conducting initial research..."] ++
  match Runner_run w research_agent topic with
  | inl _ => []
  | inr initial_report =>
      [ExpanderEnter "Viewing Initial Research Report (Agent 1 Output)";
       StMarkdown initial_report;
       ExpanderExit "Viewing Initial Research Report (Agent 1 Output)";
       SpinnerEnter "Agent2 Enhancing the research report...";
       SpinnerExit "Agent2 Enhancing the research report...";
       RunnerRun elaborative_agent (elaboration_input topic initial_report)]
  end.
Proof.
  unfold run_research_process.
  rewrite events_bind, events_with_spinner, outcome_with_spinner, runner_run_outcome.
  unfold runner_run at 1. rewrite events_bind, events_emit, outcome_emit, events_lift.
  destruct (Runner_run w research_agent topic) as [e|r1]; [done|].
  rewrite events_bind, events_with_expander, outcome_with_expander.
  unfold st_markdown. rewrite events_emit, outcome_emit.
  rewrite events_bind, events_with_spinner, outcome_with_spinner, events_ret, outcome_ret.
  rewrite events_bind, runner_run_outcome.
  unfold runner_run. rewrite events_bind, events_emit, outcome_emit, events_lift.
  by destruct (Runner_run w elaborative_agent _).
Qed.

Lemma run_research_process_calls topic :
  runner_calls (events (run_research_process w topic)) =
  (research_agent, topic) ::
  match Runner_run w research_agent topic with
  | inl _ => []
  | inr initial_report =>
      [(elaborative_agent, elaboration_input topic initial_report)]
  end.
Proof.
  rewrite run_research_process_events.
  by destruct (Runner_run w research_agent topic).
Qed.

(** The pipeline itself shows no error message and renders no report. *)
Lemma run_research_process_quiet topic :
  List.filter is_error_message (events (run_research_process w topic)) = [] ∧
  List.filter is_report_output (events (run_research_process w topic)) = [].
Proof.
  rewrite run_research_process_events.
  by destruct (Runner_run w research_agent topic).
Qed.

End PipelineFacts.

Lemma append_assoc (s1 s2 s3 : string) :
  (s1 +:+ s2) +:+ s3 = s1 +:+ (s2 +:+ s3).
Proof.
  induction s1 as [|c s1 IH]; [done|].
  change (String c ((s1 +:+ s2) +:+ s3) = String c (s1 +:+ s2 +:+ s3)).
  by rewrite IH.
Qed.

Lemma occurs_in_topic topic initial_report :
  occurs_in topic (elaboration_input topic initial_report).
Proof.
  exists (" " +:+ nl +:+ "        RESEARCH TOPIC ").
  eexists. reflexivity.
Qed.

Lemma occurs_in_report topic initial_report :
  occurs_in initial_report (elaboration_input topic initial_report).
Proof.
  exists (" " +:+ nl +:+ "        RESEARCH TOPIC " +:+ topic +:+ nl +:+
          "        INITIAL RESEARCH REPORT:" +:+ nl +:+ "        ").
  eexists. unfold elaboration_input.
  rewrite !append_assoc. reflexivity.
Qed.

(** C5.  Whatever the topic and whatever text agent 1 answers, the
    pipeline invokes agent 2 exactly once, with an input in which the topic
    and the answer of agent 1 both occur as they stand, and the pipeline
    ends as that invocation of agent 2 ends: it returns the text agent 2
    returns, unchanged. *)
Theorem run_research_process_feeds_agent2 (w : world)
    (topic initial_report : string) :
  Runner_run w research_agent topic = inr initial_report →
  runner_calls (events (run_research_process w topic)) =
    [(research_agent, topic);
     (elaborative_agent, elaboration_input topic initial_report)] ∧
  occurs_in topic (elaboration_input topic initial_report) ∧
  occurs_in initial_report (elaboration_input topic initial_report) ∧
  outcome (run_research_process w topic) =
    Runner_run w elaborative_agent (elaboration_input topic initial_report).
Proof.
  intros H1. split; [|split; [|split]].
  - by rewrite run_research_process_calls, H1.
  - apply occurs_in_topic.
  - apply occurs_in_report.
  - by rewrite run_research_process_outcome, H1.
Qed.

(** The end-to-end scenario of the specification. *)
Lemma run_research_process_feeds_agent2_witness :
  let w := stub_world (inr ()) ([], inr (PDict ∅))
             (inr "REPORT A") (inr "REPORT B") in
  let topic := "Latest trends in AI" in
  runner_calls (events (run_research_process w topic)) =
    [(research_agent, topic);
     (elaborative_agent, elaboration_input topic "REPORT A")] ∧
  occurs_in topic (elaboration_input topic "REPORT A") ∧
  occurs_in "REPORT A" (elaboration_input topic "REPORT A") ∧
  outcome (run_research_process w topic) = inr "REPORT B".
Proof.
  intros w topic.
  exact (run_research_process_feeds_agent2 w topic "REPORT A" eq_refl).
Defined.

(** C6.  When the invocation of agent 1 raises, the pipeline raises the
    same exception and agent 2 is never invoked. *)
Theorem run_research_process_agent1_raises (w : world) (topic : string) (e : exn) :
  Runner_run w research_agent topic = inl e →
  outcome (run_research_process w topic) = inl e ∧
  runner_calls (events (run_research_process w topic)) = [(research_agent, topic)] ∧
  ∀ input, RunnerRun elaborative_agent input ∉ events (run_research_process w topic).
Proof.
  intros H1. split; [|split].
  - by rewrite run_research_process_outcome, H1.
  - by rewrite run_research_process_calls, H1.
  - intros input. rewrite run_research_process_events, H1.
    rewrite app_nil_r, !elem_of_cons, elem_of_nil.
    intros [H|[H|[H|[]]]]; discriminate.
Qed.

Lemma run_research_process_agent1_raises_witness :
  let e := Raise ClsException "model service unavailable" in
  let w := stub_world (inr ()) ([], inr (PDict ∅)) (inl e) (inr "REPORT B") in
  outcome (run_research_process w "Latest trends in AI") = inl e ∧
  runner_calls (events (run_research_process w "Latest trends in AI"))
    = [(research_agent, "Latest trends in AI")] ∧
  ∀ input, RunnerRun elaborative_agent input
             ∉ events (run_research_process w "Latest trends in AI").
Proof.
  intros e w.
  exact (run_research_process_agent1_raises w "Latest trends in AI" e eq_refl).
Defined.

(** ** The presentation layer *)

Lemma button_disabled_false g f t :
  button_disabled g f t = false ↔ g ≠ "" ∧ f ≠ "" ∧ t ≠ "".
Proof.
  destruct g as [|? ?], f as [|? ?], t as [|? ?]; cbn.
  all: split; [try discriminate; intros _; repeat split; discriminate|].
  all: try (intros (? & ? & ?); done).
Qed.

Lemma button_disabled_true g f t :
  button_disabled g f t = true ↔ g = "" ∨ f = "" ∨ t = "".
Proof.
  destruct g as [|? ?], f as [|? ?], t as [|? ?]; cbn.
  all: split; [try discriminate; intros _; auto|].
  all: try (intros _; reflexivity).
  intros [?|[?|?]]; discriminate.
Qed.

(** On an enabled button neither warning guard holds. *)
Lemma enabled_guards g f t :
  button_enabled g f t = true → keys_guard g f = false ∧ topic_guard t = false.
Proof.
  unfold button_enabled. rewrite negb_true_iff, button_disabled_false.
  intros (Hg & Hf & Ht).
  destruct g as [|? ?], t as [|? ?]; done.
Qed.

Section PresentationFacts.

Variable w : world.

Lemma run_and_render_outcome topic :
  outcome (run_and_render w topic) =
  match outcome (run_research_process w topic) with
  | inl e => inl e
  | inr _ => inr ()
  end.
Proof.
  unfold run_and_render. rewrite !outcome_bind, outcome_emit.
  destruct (outcome (run_research_process w topic)) as [e|r]; [done|].
  by rewrite !outcome_bind, !outcome_emit.
Qed.

Lemma run_and_render_events topic :
  events (run_and_render w topic) =
  StEmpty :: events (run_research_process w topic) ++
  match outcome (run_research_process w topic) with
  | inl _ => []
  | inr enhanced_report =>
      [PlaceholderMarkdown "## Enhanced Research Report (Multi-Agent Output)";
       PlaceholderMarkdown enhanced_report;
       StDownloadButton "Download Report" enhanced_report
         (file_name topic) "text/markdown"]
  end.
Proof.
  unfold run_and_render.
  rewrite events_bind, events_emit, outcome_emit, events_bind.
  destruct (outcome (run_research_process w topic)) as [e|r]; [done|].
  by rewrite !events_bind, !outcome_emit, !events_emit.
Qed.

(** On an enabled button a click runs the [try] statement. *)
Lemma action_enabled g f t :
  button_enabled g f t = true →
  action w g f t true =
  try_except (run_and_render w t)
    (λ e, st_error ("An error occurred: " +:+ exn_str e)).
Proof.
  intros Hen. destruct (enabled_guards _ _ _ Hen) as [Hk Ht].
  unfold action, st_button, handler.
  unfold button_enabled in Hen. apply negb_true_iff in Hen.
  by rewrite Hen, Hk, Ht.
Qed.

End PresentationFacts.

Lemma prefix_empty s : String.prefix "" s = true.
Proof. by destruct s. Qed.

(** Replacing a one-character pattern by a one-character string maps the
    characters one by one. *)
Lemma replace_char (a b : ascii) (s : string) :
  replace (String a "") (String b "") s =
  map_chars (λ c, if Ascii.eqb c a then b else c) s.
Proof.
  unfold replace.
  induction s as [|c s IH]; [done|].
  cbn [replace_from map_chars String.prefix String.length Nat.sub].
  destruct (ascii_dec a c) as [<-|Hne].
  - rewrite prefix_empty, Ascii.eqb_refl, IH. reflexivity.
  - rewrite IH. destruct (Ascii.eqb_spec c a); [congruence|reflexivity].
Qed.

(** C7.  The button is enabled when the two keys and the topic are all
    non-empty, and disabled when one of them is empty. *)
Theorem button_enabled_nonempty (google_api_key firecrawl_api_key research_topic : string) :
  (google_api_key ≠ "" ∧ firecrawl_api_key ≠ "" ∧ research_topic ≠ "" →
   button_disabled google_api_key firecrawl_api_key research_topic = false ∧
   button_enabled google_api_key firecrawl_api_key research_topic = true) ∧
  (google_api_key = "" ∨ firecrawl_api_key = "" ∨ research_topic = "" →
   button_disabled google_api_key firecrawl_api_key research_topic = true ∧
   button_enabled google_api_key firecrawl_api_key research_topic = false).
Proof.
  unfold button_enabled. split.
  - intros H. apply button_disabled_false in H. by rewrite H.
  - intros H. apply button_disabled_true in H. by rewrite H.
Qed.

Lemma button_enabled_nonempty_witness :
  button_disabled "sk-1" "fc-1" "AI in healthcare" = false ∧
  button_disabled "sk-1" "" "AI in healthcare" = true.
Proof.
  split.
  - apply (button_enabled_nonempty "sk-1" "fc-1" "AI in healthcare").
    repeat split; discriminate.
  - apply (button_enabled_nonempty "sk-1" "" "AI in healthcare").
    right; left; reflexivity.
Defined.

(** C8, as amended.  When the pipeline run started by a click on the
    enabled button raises an instance of [Exception], the handler catches
    it: the handler itself ends normally, the trace of the run ends with
    the one error message of the run, which carries the message of the
    exception, and neither the final report nor the download control is
    rendered. *)
Theorem handler_reports_Exception (w : world)
    (google_api_key firecrawl_api_key research_topic : string) (e : exn) :
  button_enabled google_api_key firecrawl_api_key research_topic = true →
  outcome (run_research_process w research_topic) = inl e →
  is_Exception e = true →
  let run := action w google_api_key firecrawl_api_key research_topic true in
  outcome run = inr () ∧
  events run =
    StEmpty :: events (run_research_process w research_topic) ++
    [StError ("An error occurred: " +:+ exn_str e)] ∧
  List.filter is_error_message (events run) =
    [StError ("An error occurred: " +:+ exn_str e)] ∧
  List.filter is_report_output (events run) = [].
Proof.
  intros Hen Hrun He run. subst run. rewrite (action_enabled _ _ _ _ Hen).
  assert (events (try_except (run_and_render w research_topic)
                    (λ e, st_error ("An error occurred: " +:+ exn_str e))) =
          StEmpty :: events (run_research_process w research_topic) ++
          [StError ("An error occurred: " +:+ exn_str e)]) as Hev.
  { rewrite events_try_except, run_and_render_events, run_and_render_outcome.
    rewrite Hrun, He, app_nil_r. reflexivity. }
  destruct (run_research_process_quiet w research_topic) as [Hq1 Hq2].
  split; [|split; [exact Hev|split]].
  - rewrite outcome_try_except, run_and_render_outcome, Hrun, He. reflexivity.
  - rewrite Hev. cbn [List.filter is_error_message].
    by rewrite List.filter_app, Hq1.
  - rewrite Hev. cbn [List.filter is_report_output].
    by rewrite List.filter_app, Hq2.
Qed.

Lemma handler_reports_Exception_witness :
  let e := Raise ClsException "model service unavailable" in
  let w := stub_world (inr ()) ([], inr (PDict ∅)) (inr "REPORT A") (inl e) in
  let run := action w "sk-1" "fc-1" "AI in healthcare" true in
  outcome run = inr () ∧
  events run =
    StEmpty :: events (run_research_process w "AI in healthcare") ++
    [StError "An error occurred: model service unavailable"] ∧
  List.filter is_error_message (events run) =
    [StError "An error occurred: model service unavailable"] ∧
  List.filter is_report_output (events run) = [].
Proof.
  intros e w.
  exact (handler_reports_Exception w "sk-1" "fc-1" "AI in healthcare" e
           eq_refl eq_refl eq_refl).
Defined.

(** C8, as stated, fails: [KeyboardInterrupt] raised during the invocation
    of agent 1 is not an instance of [Exception]; the handler does not
    catch it and shows no error message. *)
Lemma handler_KeyboardInterrupt :
  let w := stub_world (inr ()) ([], inr (PDict ∅))
             (inl KeyboardInterrupt) (inr "REPORT B") in
  let run := action w "sk-1" "fc-1" "AI in healthcare" true in
  button_enabled "sk-1" "fc-1" "AI in healthcare" = true ∧
  outcome (run_research_process w "AI in healthcare") = inl KeyboardInterrupt ∧
  outcome run = inl KeyboardInterrupt ∧
  List.filter is_error_message (events run) = [].
Proof. repeat split. Qed.

(** C9.  The name of the downloaded file is the topic with every space
    replaced by an underscore, followed by [_report.md]; for the topic
    "AI in healthcare" it is "AI_in_healthcare_report.md". *)
Theorem file_name_spec (research_topic : string) :
  file_name research_topic =
    map_chars space_to_underscore research_topic +:+ "_report.md" ∧
  file_name "AI in healthcare" = "AI_in_healthcare_report.md".
Proof.
  split; [|reflexivity].
  unfold file_name. f_equal. apply replace_char.
Qed.

(** C10.  When the button is enabled, the guards of both warning branches
    are false, and a click runs the pipeline: the handler is the [try]
    statement, and its first invocation of the agent runtime is agent 1 on
    the topic. *)
Theorem enabled_click_runs_pipeline (w : world)
    (google_api_key firecrawl_api_key research_topic : string) :
  button_enabled google_api_key firecrawl_api_key research_topic = true →
  keys_guard google_api_key firecrawl_api_key = false ∧
  topic_guard research_topic = false ∧
  action w google_api_key firecrawl_api_key research_topic true =
    try_except (run_and_render w research_topic)
      (λ e, st_error ("An error occurred: " +:+ exn_str e)) ∧
  head (runner_calls
          (events (action w google_api_key firecrawl_api_key research_topic true)))
    = Some (research_agent, research_topic).
Proof.
  intros Hen. destruct (enabled_guards _ _ _ Hen) as [Hk Ht].
  split; [exact Hk|]. split; [exact Ht|]. split; [by apply action_enabled|].
  rewrite (action_enabled _ _ _ _ Hen), events_try_except, run_and_render_events.
  rewrite run_research_process_events. reflexivity.
Qed.

Lemma enabled_click_runs_pipeline_witness :
  let w := stub_world (inr ()) ([], inr (PDict ∅))
             (inr "REPORT A") (inr "REPORT B") in
  keys_guard "sk-1" "fc-1" = false ∧
  topic_guard "AI in healthcare" = false ∧
  action w "sk-1" "fc-1" "AI in healthcare" true =
    try_except (run_and_render w "AI in healthcare")
      (λ e, st_error ("An error occurred: " +:+ exn_str e)) ∧
  head (runner_calls (events (action w "sk-1" "fc-1" "AI in healthcare" true)))
    = Some (research_agent, "AI in healthcare").
Proof.
  intros w.
  exact (enabled_click_runs_pipeline w "sk-1" "fc-1" "AI in healthcare" eq_refl).
Defined.

(** ** The session state *)

Ltac session_cases :=
  repeat case_bool_decide; simplify_map_eq;
  repeat match goal with
         | Hl : ?m !! ?k = _, H : context [?m !! ?k] |- _ =>
             lazymatch type of H with
             | m !! k = _ => fail
             | _ => rewrite Hl in H
             end
         end;
  try done;
  try (exfalso;
       match goal with
       | H : ¬ is_Some (Some _) |- _ => apply H; eauto
       | H : is_Some None |- _ => by apply is_Some_None in H
       end).

Lemma init_session_state_google ss :
  init_session_state ss !! "google_api_key"
  = Some (default (PStr "") (ss !! "google_api_key")).
Proof.
  unfold init_session_state.
  destruct (ss !! "google_api_key") eqn:Hg; session_cases.
Qed.

Lemma init_session_state_firecrawl ss :
  init_session_state ss !! "firecrawl_api_key"
  = Some (default (PStr "") (ss !! "firecrawl_api_key")).
Proof.
  unfold init_session_state.
  destruct (ss !! "firecrawl_api_key") eqn:Hf; session_cases.
Qed.

Lemma init_session_state_other ss k :
  k ≠ "google_api_key" → k ≠ "firecrawl_api_key" →
  init_session_state ss !! k = ss !! k.
Proof.
  intros. unfold init_session_state. session_cases.
Qed.

Lemma sidebar_google g f ss :
  sidebar g f ss !! "google_api_key" =
  if String.eqb g "" then ss !! "google_api_key" else Some (PStr g).
Proof.
  unfold sidebar. cbn [truthy].
  destruct (String.eqb g ""), (String.eqb f ""); by simplify_map_eq.
Qed.

Lemma sidebar_firecrawl g f ss :
  sidebar g f ss !! "firecrawl_api_key" =
  if String.eqb f "" then ss !! "firecrawl_api_key" else Some (PStr f).
Proof.
  unfold sidebar. cbn [truthy].
  destruct (String.eqb g ""), (String.eqb f ""); by simplify_map_eq.
Qed.

Lemma script_session_attr (google_api_key firecrawl_api_key : string)
    (ss : gmap string pyval) :
  session_attr (script_session google_api_key firecrawl_api_key ss) "google_api_key"
  = inr (if String.eqb google_api_key ""
         then default (PStr "") (ss !! "google_api_key")
         else PStr google_api_key) ∧
  session_attr (script_session google_api_key firecrawl_api_key ss) "firecrawl_api_key"
  = inr (if String.eqb firecrawl_api_key ""
         then default (PStr "") (ss !! "firecrawl_api_key")
         else PStr firecrawl_api_key).
Proof.
  unfold session_attr, script_session.
  rewrite sidebar_google, sidebar_firecrawl.
  rewrite init_session_state_google, init_session_state_firecrawl.
  by destruct (String.eqb google_api_key ""), (String.eqb firecrawl_api_key "").
Qed.

(** X1.  After the top of the script has run, reading either key from the
    session state never raises: the key holds the text of its field when
    the field is not empty, and otherwise what was stored before, the
    empty string in a fresh session. *)
Theorem script_session_keys (google_api_key firecrawl_api_key : string)
    (ss : gmap string pyval) :
  session_attr (script_session google_api_key firecrawl_api_key ss) "google_api_key"
  = inr (if String.eqb google_api_key ""
         then default (PStr "") (ss !! "google_api_key")
         else PStr google_api_key) ∧
  session_attr (script_session google_api_key firecrawl_api_key ss) "firecrawl_api_key"
  = inr (if String.eqb firecrawl_api_key ""
         then default (PStr "") (ss !! "firecrawl_api_key")
         else PStr firecrawl_api_key).
Proof. apply script_session_attr. Qed.

(** X2.  Initialising the session state keeps every value that is stored
    already, and doing it again changes nothing: a rerun of the script
    does not wipe the keys. *)
Theorem init_session_state_keeps (ss : gmap string pyval) :
  (∀ k v, ss !! k = Some v → init_session_state ss !! k = Some v) ∧
  init_session_state (init_session_state ss) = init_session_state ss.
Proof.
  assert (∀ ss' k v, ss' !! k = Some v →
                     init_session_state ss' !! k = Some v) as Hkeep.
  { intros ss' k v Hk.
    destruct (decide (k = "google_api_key")) as [->|Hg].
    { by rewrite init_session_state_google, Hk. }
    destruct (decide (k = "firecrawl_api_key")) as [->|Hf].
    { by rewrite init_session_state_firecrawl, Hk. }
    by rewrite init_session_state_other. }
  split; [apply Hkeep|].
  apply map_eq. intros k.
  destruct (decide (k = "google_api_key")) as [->|Hg].
  { by rewrite !init_session_state_google. }
  destruct (decide (k = "firecrawl_api_key")) as [->|Hf].
  { by rewrite !init_session_state_firecrawl. }
  by rewrite !init_session_state_other.
Qed.

(** X3.  A key that was typed in once stays in the session state when its
    field is emptied in a later run: the model client is still built with
    it, while the button of that run is disabled. *)
Theorem stored_key_survives_empty_field (google_api_key f1 f2 topic : string)
    (ss : gmap string pyval) :
  google_api_key ≠ "" →
  let ss1 := script_session google_api_key f1 ss in
  let ss2 := script_session "" f2 ss1 in
  external_client_api_key ss2 = inr (PStr google_api_key) ∧
  button_disabled "" f2 topic = true.
Proof.
  intros Hg ss1 ss2. split; [|reflexivity].
  unfold external_client_api_key, ss2.
  rewrite (proj1 (script_session_attr "" f2 ss1)). cbn [String.eqb].
  unfold ss1, script_session. rewrite sidebar_google.
  destruct (String.eqb_spec google_api_key ""); [done|reflexivity].
Qed.

Lemma stored_key_survives_empty_field_witness :
  external_client_api_key
    (script_session "" "fc-1" (script_session "sk-1" "fc-1" ∅))
  = inr (PStr "sk-1") ∧
  button_disabled "" "fc-1" "AI in healthcare" = true.
Proof.
  apply (stored_key_survives_empty_field "sk-1" "fc-1" "fc-1" "AI in healthcare" ∅).
  discriminate.
Defined.

(** X4.  When the button is enabled, the two keys in the session state
    are the texts of the two fields of this run, whatever was stored
    before. *)
Theorem enabled_session_keys (google_api_key firecrawl_api_key research_topic : string)
    (ss : gmap string pyval) :
  button_enabled google_api_key firecrawl_api_key research_topic = true →
  session_attr (script_session google_api_key firecrawl_api_key ss) "google_api_key"
  = inr (PStr google_api_key) ∧
  session_attr (script_session google_api_key firecrawl_api_key ss) "firecrawl_api_key"
  = inr (PStr firecrawl_api_key).
Proof.
  unfold button_enabled. rewrite negb_true_iff, button_disabled_false.
  intros (Hg & Hf & _).
  destruct (script_session_attr google_api_key firecrawl_api_key ss) as [-> ->].
  destruct (String.eqb_spec google_api_key ""); [done|].
  by destruct (String.eqb_spec firecrawl_api_key "").
Qed.

Lemma enabled_session_keys_witness :
  let ss := <["google_api_key" := PStr "old"]> ∅ in
  session_attr (script_session "sk-1" "fc-1" ss) "google_api_key"
  = inr (PStr "sk-1") ∧
  session_attr (script_session "sk-1" "fc-1" ss) "firecrawl_api_key"
  = inr (PStr "fc-1").
Proof.
  intros ss.
  exact (enabled_session_keys "sk-1" "fc-1" "AI in healthcare" ss eq_refl).
Defined.

(** ** The adapter: what it returns on every response, and its trace *)

(** The block after the call, on a response that is a dict. *)
Lemma after_response_dict (d : gmap string pyval) :
  outcome (after_response (PDict d)) =
  match d !! "data" with
  | None => inr (success_record (PStr no_final_analysis) 0 (PList []))
  | Some (PDict dd) =>
      match len (default (PList []) (dd !! "sources")) with
      | inl e => inl e
      | inr n =>
          inr (success_record
                 (default (PStr no_final_analysis) (dd !! "final_analysis"))
                 n (default (PList []) (dd !! "sources")))
      end
  | Some x => inl (no_attribute x "keys")
  end.
Proof.
  unfold after_response, st_write.
  destruct (d !! "data") as [x|] eqn:Hx.
  - cbn [contains_key]. rewrite bool_decide_eq_true_2 by eauto.
    repeat value_step. rewrite Hx.
    destruct x as [| | | | |dd]; repeat value_step; reflexivity.
  - cbn [contains_key]. rewrite bool_decide_eq_false_2
      by (rewrite Hx; intros [? [=]]).
    repeat value_step. rewrite Hx. repeat value_step.
    rewrite !lookup_empty. repeat value_step. reflexivity.
Qed.

Lemma after_response_not_dict (result : pyval) :
  is_dict result = false →
  outcome (after_response result) = inl (no_attribute result "keys").
Proof.
  unfold after_response. intros Hnd.
  destruct result; try discriminate; reflexivity.
Qed.

Section AdapterTrace.

Variable w : world.

Lemma app_deep_research_events query params :
  events (app_deep_research w query params on_activity) =
  FirecrawlDeepResearch query params ::
  activity_lines (firecrawl_deep_research w query params).1.
Proof.
  unfold app_deep_research. rewrite events_bind, events_emit, outcome_emit.
  destruct (firecrawl_deep_research w query params) as [acts r].
  rewrite events_bind, callbacks_events, callbacks_outcome, events_lift.
  cbn [fst]. by rewrite app_nil_r.
Qed.

Lemma try_block_events query max_depth time_limit max_urls :
  events (try_block w query max_depth time_limit max_urls) =
  FirecrawlAppNew (session_firecrawl_api_key w) ::
  match FirecrawlApp w (session_firecrawl_api_key w) with
  | inl _ => []
  | inr _ =>
      let params := request_params max_depth time_limit max_urls in
      SpinnerEnter spinner_text ::
      (FirecrawlDeepResearch query params ::
       activity_lines (firecrawl_deep_research w query params).1 ++
       match (firecrawl_deep_research w query params).2 with
       | inl _ => []
       | inr result => events (after_response result)
       end) ++ [SpinnerExit spinner_text]
  end.
Proof.
  unfold try_block, new_FirecrawlApp.
  rewrite events_bind, events_bind, events_emit, outcome_emit, events_lift.
  rewrite outcome_bind, outcome_emit, outcome_lift.
  destruct (FirecrawlApp w _) as [e|[]]; [done|].
  rewrite events_with_spinner, events_bind, app_deep_research_events.
  by rewrite app_deep_research_outcome.
Qed.

Lemma deep_research_events query max_depth time_limit max_urls :
  events (deep_research w query max_depth time_limit max_urls) =
  events (try_block w query max_depth time_limit max_urls) ++
  match outcome (try_block w query max_depth time_limit max_urls) with
  | inr _ => []
  | inl e =>
      if is_Exception e
      then [StError ("Deep research error: " +:+ exn_str e)] else []
  end.
Proof.
  rewrite deep_research_unfold, events_try_except.
  destruct (outcome (try_block _ _ _ _ _)) as [e|rec]; [|done].
  by destruct (is_Exception e).
Qed.

Lemma no_crawl_call_bind {A B} (m : M A) (k : A → M B) :
  List.filter is_crawl_call (events m) = [] →
  (∀ a, List.filter is_crawl_call (events (k a)) = []) →
  List.filter is_crawl_call (events (m ≫= k)) = [].
Proof.
  intros Hm Hk. rewrite events_bind, List.filter_app, Hm.
  destruct (outcome m); [done|apply Hk].
Qed.

(** The block after the call only writes to the page. *)
Lemma after_response_no_crawl_call result :
  List.filter is_crawl_call (events (after_response result)) = [].
Proof.
  unfold after_response, st_write.
  repeat (apply no_crawl_call_bind; [try reflexivity|intros ?]);
    try reflexivity.
  destruct (contains_key "data" result); [|reflexivity].
  repeat (apply no_crawl_call_bind; [try reflexivity|intros ?]); reflexivity.
Qed.

Lemma activity_lines_no_crawl_call acts :
  List.filter is_crawl_call (activity_lines acts) = [].
Proof. induction acts as [|a acts IH]; [done|]. exact IH. Qed.

End AdapterTrace.

Lemma deep_research_on_returned (w : world) query max_depth time_limit max_urls
    acts result :
  FirecrawlApp w (session_firecrawl_api_key w) = inr () →
  firecrawl_deep_research w query (request_params max_depth time_limit max_urls)
    = (acts, inr result) →
  outcome (deep_research w query max_depth time_limit max_urls) =
  match outcome (after_response result) with
  | inl e => caught e
  | inr rec => inr rec
  end.
Proof.
  intros Hctor Hcall.
  by rewrite deep_research_outcome, try_block_outcome, Hctor, Hcall.
Qed.

(** X5.  When the constructor of the crawl client raises an instance of
    [Exception] (no key, for instance), the adapter returns the error
    record with its message; the trace is the constructor call followed
    by the error message: no spinner, and the crawl service is not
    called. *)
Theorem deep_research_constructor_fails (w : world) (query : string)
    (max_depth time_limit max_urls : Z) (e : exn) :
  FirecrawlApp w (session_firecrawl_api_key w) = inl e →
  is_Exception e = true →
  outcome (deep_research w query max_depth time_limit max_urls)
    = inr (error_record e) ∧
  events (deep_research w query max_depth time_limit max_urls)
    = [FirecrawlAppNew (session_firecrawl_api_key w);
       StError ("Deep research error: " +:+ exn_str e)].
Proof.
  intros Hctor He. split.
  - rewrite deep_research_outcome, try_block_outcome, Hctor.
    unfold caught. by rewrite He.
  - rewrite deep_research_events, try_block_events, try_block_outcome, Hctor.
    by rewrite He.
Qed.

Lemma deep_research_constructor_fails_witness :
  let e := Raise ClsException "No API key provided" in
  let w := stub_world (inl e) ([], inr (PDict ∅)) (inr "") (inr "") in
  outcome (deep_research w "AI" 3 180 10) = inr (error_record e) ∧
  events (deep_research w "AI" 3 180 10)
    = [FirecrawlAppNew "fc-key";
       StError "Deep research error: No API key provided"].
Proof.
  intros e w.
  exact (deep_research_constructor_fails w "AI" 3 180 10 e eq_refl eq_refl).
Defined.

(** X6.  When the crawl service raises an instance of [Exception], the
    trace of the adapter is: the constructor call, the spinner, the one
    call of the service with the query and the three parameters, one line
    "[type] message" per reported activity in the order reported, the end
    of the spinner, and last the error message "Deep research error: "
    followed by the message of the exception. *)
Theorem deep_research_error_trace (w : world) (query : string)
    (max_depth time_limit max_urls : Z) (acts : list activity) (e : exn) :
  FirecrawlApp w (session_firecrawl_api_key w) = inr () →
  firecrawl_deep_research w query (request_params max_depth time_limit max_urls)
    = (acts, inl e) →
  is_Exception e = true →
  events (deep_research w query max_depth time_limit max_urls) =
  [FirecrawlAppNew (session_firecrawl_api_key w);
   SpinnerEnter spinner_text;
   FirecrawlDeepResearch query (request_params max_depth time_limit max_urls)] ++
  activity_lines acts ++
  [SpinnerExit spinner_text;
   StError ("Deep research error: " +:+ exn_str e)].
Proof.
  intros Hctor Hcall He.
  rewrite deep_research_events, try_block_events, try_block_outcome.
  rewrite Hctor. cbn zeta. rewrite Hcall. cbn [fst snd]. rewrite He.
  rewrite app_nil_r. cbn [app]. by rewrite <- !app_assoc.
Qed.

Lemma deep_research_error_trace_witness :
  let e := Raise ClsException "Deep research job failed" in
  let acts := [Activity "search" "Searching"; Activity "analyze" "Reading"] in
  let w := stub_world (inr ()) (acts, inl e) (inr "") (inr "") in
  events (deep_research w "AI" 3 180 10) =
  [FirecrawlAppNew "fc-key";
   SpinnerEnter spinner_text;
   FirecrawlDeepResearch "AI" (request_params 3 180 10)] ++
  [StWrite [PStr "[search] Searching"]; StWrite [PStr "[analyze] Reading"]] ++
  [SpinnerExit spinner_text;
   StError "Deep research error: Deep research job failed"].
Proof.
  intros e acts w.
  exact (deep_research_error_trace w "AI" 3 180 10 acts e
           eq_refl eq_refl eq_refl).
Defined.

(** X7.  An exception of the crawl service that is not an instance of
    [Exception] leaves the adapter as it is: no record is returned and no
    error message is shown; the spinner is still taken down. *)
Theorem deep_research_passes_non_Exception (w : world) (query : string)
    (max_depth time_limit max_urls : Z) (acts : list activity) (e : exn) :
  FirecrawlApp w (session_firecrawl_api_key w) = inr () →
  firecrawl_deep_research w query (request_params max_depth time_limit max_urls)
    = (acts, inl e) →
  is_Exception e = false →
  outcome (deep_research w query max_depth time_limit max_urls) = inl e ∧
  events (deep_research w query max_depth time_limit max_urls) =
  [FirecrawlAppNew (session_firecrawl_api_key w);
   SpinnerEnter spinner_text;
   FirecrawlDeepResearch query (request_params max_depth time_limit max_urls)] ++
  activity_lines acts ++ [SpinnerExit spinner_text].
Proof.
  intros Hctor Hcall He. split.
  - rewrite (deep_research_on_exception _ _ _ _ _ _ _ Hctor Hcall).
    unfold caught. by rewrite He.
  - rewrite deep_research_events, try_block_events, try_block_outcome.
    rewrite Hctor. cbn zeta. rewrite Hcall. cbn [fst snd]. rewrite He.
    by rewrite !app_nil_r.
Qed.

Lemma deep_research_passes_non_Exception_witness :
  let w := stub_world (inr ()) ([Activity "search" "Searching"],
                                inl KeyboardInterrupt) (inr "") (inr "") in
  outcome (deep_research w "AI" 3 180 10) = inl KeyboardInterrupt ∧
  events (deep_research w "AI" 3 180 10) =
  [FirecrawlAppNew "fc-key";
   SpinnerEnter spinner_text;
   FirecrawlDeepResearch "AI" (request_params 3 180 10)] ++
  [StWrite [PStr "[search] Searching"]] ++ [SpinnerExit spinner_text].
Proof.
  intros w.
  exact (deep_research_passes_non_Exception w "AI" 3 180 10
           [Activity "search" "Searching"] KeyboardInterrupt
           eq_refl eq_refl eq_refl).
Defined.

(** X8.  Once the client is built, the adapter calls the crawl service
    exactly once, whatever the service answers or raises: there is no
    retry.  The call carries the query and the three numbers under the
    keys [maxDepth], [timeLimit] and [maxUrls]. *)
Theorem deep_research_calls_service_once (w : world) (query : string)
    (max_depth time_limit max_urls : Z) :
  FirecrawlApp w (session_firecrawl_api_key w) = inr () →
  List.filter is_crawl_call
    (events (deep_research w query max_depth time_limit max_urls))
  = [FirecrawlDeepResearch query (request_params max_depth time_limit max_urls)] ∧
  get (request_params max_depth time_limit max_urls) "maxDepth" PNone
    = inr (PInt max_depth) ∧
  get (request_params max_depth time_limit max_urls) "timeLimit" PNone
    = inr (PInt time_limit) ∧
  get (request_params max_depth time_limit max_urls) "maxUrls" PNone
    = inr (PInt max_urls) ∧
  len (request_params max_depth time_limit max_urls) = inr 3.
Proof.
  intros Hctor. split; [|repeat split; reflexivity].
  rewrite deep_research_events, try_block_events, Hctor. cbn zeta.
  rewrite List.filter_app.
  assert (List.filter is_crawl_call
            match outcome (try_block w query max_depth time_limit max_urls) with
            | inl e =>
                if is_Exception e
                then [StError ("Deep research error: " +:+ exn_str e)] else []
            | inr _ => []
            end = []) as ->.
  { destruct (outcome _) as [e|?]; [|done]. by destruct (is_Exception e). }
  rewrite app_nil_r.
  cbn [List.filter is_crawl_call].
  rewrite List.filter_app. cbn [List.filter is_crawl_call app].
  rewrite List.filter_app, activity_lines_no_crawl_call. cbn [app].
  destruct ((firecrawl_deep_research w query _).2) as [e|result]; [done|].
  by rewrite after_response_no_crawl_call.
Qed.

Lemma deep_research_calls_service_once_witness :
  let w := stub_world (inr ()) ([Activity "search" "Searching"],
                                inr (PDict {[ "data" := PNone ]}))
             (inr "") (inr "") in
  List.filter is_crawl_call (events (deep_research w "AI" 3 180 10))
  = [FirecrawlDeepResearch "AI" (request_params 3 180 10)] ∧
  get (request_params 3 180 10) "maxDepth" PNone = inr (PInt 3) ∧
  get (request_params 3 180 10) "timeLimit" PNone = inr (PInt 180) ∧
  get (request_params 3 180 10) "maxUrls" PNone = inr (PInt 10) ∧
  len (request_params 3 180 10) = inr 3.
Proof.
  intros w.
  exact (deep_research_calls_service_once w "AI" 3 180 10 eq_refl).
Defined.

(** X9.  A response that is not a dict, or whose [data] entry is there
    but is not a dict ([None], a string, a list), does not make the
    adapter raise: the [.keys()] of the debug lines fails inside the
    [try], and the adapter returns the error record whose message names
    the type that has no [keys]. *)
Theorem deep_research_data_not_dict (w : world) (query : string)
    (max_depth time_limit max_urls : Z) (acts : list activity)
    (result bad : pyval) :
  FirecrawlApp w (session_firecrawl_api_key w) = inr () →
  firecrawl_deep_research w query (request_params max_depth time_limit max_urls)
    = (acts, inr result) →
  is_dict bad = false →
  result = bad ∨ (∃ d, result = PDict d ∧ d !! "data" = Some bad) →
  outcome (deep_research w query max_depth time_limit max_urls)
    = inr (error_record (no_attribute bad "keys")) ∧
  error_record (no_attribute bad "keys") !! "error"
    = Some (PStr ("'" +:+ type_name bad +:+ "' object has no attribute 'keys'")).
Proof.
  intros Hctor Hcall Hbad Hshape. split; [|reflexivity].
  rewrite (deep_research_on_returned _ _ _ _ _ _ _ Hctor Hcall).
  destruct Hshape as [->|(d & -> & Hd)].
  - by rewrite after_response_not_dict.
  - rewrite after_response_dict, Hd. by destruct bad.
Qed.

Lemma deep_research_data_not_dict_witness :
  let result := PDict {[ "data" := PStr "pending" ]} in
  let w := stub_world (inr ()) ([], inr result) (inr "") (inr "") in
  outcome (deep_research w "AI" 3 180 10)
    = inr (error_record (no_attribute (PStr "pending") "keys")) ∧
  error_record (no_attribute (PStr "pending") "keys") !! "error"
    = Some (PStr "'str' object has no attribute 'keys'").
Proof.
  intros result w.
  exact (deep_research_data_not_dict w "AI" 3 180 10 [] result (PStr "pending")
           eq_refl eq_refl eq_refl
           (or_intror (ex_intro _ _ (conj eq_refl eq_refl)))).
Defined.

(** X10.  When [data] is a dict whose [sources] entry has no length
    ([None], a number, a boolean), [len(sources)] raises inside the [try]
    and the adapter returns the error record with the message of that
    [TypeError]; a [sources] entry that is [None] is not replaced by the
    empty list. *)
Theorem deep_research_sources_unsized (w : world) (query : string)
    (max_depth time_limit max_urls : Z) (acts : list activity)
    (d dd : gmap string pyval) (srcs : pyval) (e : exn) :
  FirecrawlApp w (session_firecrawl_api_key w) = inr () →
  firecrawl_deep_research w query (request_params max_depth time_limit max_urls)
    = (acts, inr (PDict d)) →
  d !! "data" = Some (PDict dd) →
  dd !! "sources" = Some srcs →
  len srcs = inl e →
  outcome (deep_research w query max_depth time_limit max_urls)
    = inr (error_record e) ∧
  exn_str e = "object of type '" +:+ type_name srcs +:+ "' has no len()".
Proof.
  intros Hctor Hcall Hd Hs Hlen.
  assert (is_Exception e = true ∧
          exn_str e = "object of type '" +:+ type_name srcs +:+ "' has no len()")
    as [He Hmsg] by (destruct srcs; simplify_eq/=; done).
  split; [|exact Hmsg].
  rewrite (deep_research_on_returned _ _ _ _ _ _ _ Hctor Hcall).
  rewrite after_response_dict, Hd, Hs. cbn [default from_option id].
  rewrite Hlen. unfold caught. by rewrite He.
Qed.

Lemma deep_research_sources_unsized_witness :
  let dd : gmap string pyval :=
    <["final_analysis" := PStr "X"]> {[ "sources" := PNone ]} in
  let w := stub_world (inr ()) ([], inr (PDict {[ "data" := PDict dd ]}))
             (inr "") (inr "") in
  outcome (deep_research w "AI" 3 180 10)
    = inr (error_record (TypeError "object of type 'NoneType' has no len()")) ∧
  exn_str (TypeError "object of type 'NoneType' has no len()")
    = "object of type '" +:+ type_name PNone +:+ "' has no len()".
Proof.
  intros dd w.
  exact (deep_research_sources_unsized w "AI" 3 180 10 []
           {[ "data" := PDict dd ]} dd PNone
           (TypeError "object of type 'NoneType' has no len()")
           eq_refl eq_refl eq_refl eq_refl eq_refl).
Defined.

(** X11.  A response dict without a [data] key gives the default record
    with [success] true whatever else it holds: the adapter looks at no
    other key, so a response in which the service itself reports a
    failure is still answered with [success] true and the placeholder
    analysis. *)
Theorem deep_research_no_data_key (w : world) (query : string)
    (max_depth time_limit max_urls : Z) (acts : list activity)
    (d : gmap string pyval) :
  FirecrawlApp w (session_firecrawl_api_key w) = inr () →
  firecrawl_deep_research w query (request_params max_depth time_limit max_urls)
    = (acts, inr (PDict d)) →
  d !! "data" = None →
  outcome (deep_research w query max_depth time_limit max_urls)
    = inr (success_record (PStr "No final analysis available") 0 (PList [])).
Proof.
  intros Hctor Hcall Hd.
  rewrite (deep_research_on_returned _ _ _ _ _ _ _ Hctor Hcall).
  by rewrite after_response_dict, Hd.
Qed.

Lemma deep_research_no_data_key_witness :
  let d : gmap string pyval :=
    <["success" := PBool false]>
      {[ "error" := PStr "Deep research job terminated unexpectedly" ]} in
  let w := stub_world (inr ()) ([], inr (PDict d)) (inr "") (inr "") in
  outcome (deep_research w "AI" 3 180 10)
    = inr (success_record (PStr "No final analysis available") 0 (PList [])).
Proof.
  intros d w.
  exact (deep_research_no_data_key w "AI" 3 180 10 [] d eq_refl eq_refl eq_refl).
Defined.



(** ** The pipeline and the handler: the other paths *)

(** X13.  When agent 1 answers and the invocation of agent 2 raises, the
    pipeline raises that exception; by then the answer of agent 1 has been
    shown in the expander, both spinners have been taken down, and agent 2
    has been invoked once, after the display. *)
Theorem run_research_process_agent2_raises (w : world)
    (topic initial_report : string) (e : exn) :
  Runner_run w research_agent topic = inr initial_report →
  Runner_run w elaborative_agent (elaboration_input topic initial_report) = inl e →
  outcome (run_research_process w topic) = inl e ∧
  events (run_research_process w topic) =
  [SpinnerEnter "Agent1 Conducting initial research...";
   RunnerRun research_agent topic;
   SpinnerExit "Agent1 Conducting initial research...";
   ExpanderEnter "Viewing Initial Research Report (Agent 1 Output)";
   StMarkdown initial_report;
   ExpanderExit "Viewing Initial Research Report (Agent 1 Output)";
   SpinnerEnter "Agent2 Enhancing the research report...";
   SpinnerExit "Agent2 Enhancing the research report...";
   RunnerRun elaborative_agent (elaboration_input topic initial_report)].
Proof.
  intros H1 H2. split.
  - by rewrite run_research_process_outcome, H1.
  - by rewrite run_research_process_events, H1.
Qed.

Lemma run_research_process_agent2_raises_witness :
  let e := Raise ClsException "rate limit" in
  let w := stub_world (inr ()) ([], inr (PDict ∅)) (inr "REPORT A") (inl e) in
  let topic := "Latest trends in AI" in
  outcome (run_research_process w topic) = inl e ∧
  events (run_research_process w topic) =
  [SpinnerEnter "Agent1 Conducting initial research...";
   RunnerRun research_agent topic;
   SpinnerExit "Agent1 Conducting initial research...";
   ExpanderEnter "Viewing Initial Research Report (Agent 1 Output)";
   StMarkdown "REPORT A";
   ExpanderExit "Viewing Initial Research Report (Agent 1 Output)";
   SpinnerEnter "Agent2 Enhancing the research report...";
   SpinnerExit "Agent2 Enhancing the research report...";
   RunnerRun elaborative_agent (elaboration_input topic "REPORT A")].
Proof.
  intros e w topic.
  exact (run_research_process_agent2_raises w topic "REPORT A" e eq_refl eq_refl).
Defined.








(** X17.  The handler as written: the key warning is chosen exactly when
    the model key is empty and the crawl key is not; otherwise an empty
    topic gives the topic warning, and in every other case, also with
    both keys empty or with only the crawl key empty, the pipeline is
    run. *)
Theorem handler_branches (w : world)
    (google_api_key firecrawl_api_key research_topic : string) :
  handler w google_api_key firecrawl_api_key research_topic =
  if String.eqb google_api_key "" && negb (String.eqb firecrawl_api_key "")
  then st_warning "Please enter your Google or Firecrawl API Key."
  else if String.eqb research_topic ""
  then st_warning "Please enter a research topic."
  else try_except (run_and_render w research_topic)
         (λ e, st_error ("An error occurred: " +:+ exn_str e)).
Proof.
  destruct google_api_key as [|? ?], firecrawl_api_key as [|? ?],
    research_topic as [|? ?]; reflexivity.
Qed.

(** ** The file name of the download *)

Lemma append_cons c s1 s2 : String c s1 +:+ s2 = String c (s1 +:+ s2).
Proof. reflexivity. Qed.

Lemma contains_char_append a s1 s2 :
  contains_char a (s1 +:+ s2) = contains_char a s1 || contains_char a s2.
Proof.
  induction s1 as [|c s1 IH]; [done|].
  rewrite append_cons. cbn [contains_char]. by rewrite IH, orb_assoc.
Qed.

Lemma length_append s1 s2 :
  String.length (s1 +:+ s2) = (String.length s1 + String.length s2)%nat.
Proof.
  induction s1 as [|c s1 IH]; [done|].
  rewrite append_cons. cbn [String.length]. by rewrite IH.
Qed.

Lemma map_chars_no_space s :
  contains_char " " (map_chars space_to_underscore s) = false.
Proof.
  induction s as [|c s IH]; [done|].
  cbn [map_chars contains_char]. rewrite IH, orb_false_r.
  unfold space_to_underscore.
  destruct (Ascii.eqb c " ") eqn:Hc; [reflexivity|exact Hc].
Qed.

Lemma map_chars_length f s : String.length (map_chars f s) = String.length s.
Proof. induction s as [|c s IH]; [done|]. cbn [map_chars String.length]. by rewrite IH. Qed.

Lemma map_chars_unchanged s :
  contains_char " " s = false → map_chars space_to_underscore s = s.
Proof.
  induction s as [|c s IH]; [done|].
  cbn [contains_char map_chars]. intros [Hc Hs]%orb_false_iff.
  rewrite (IH Hs). unfold space_to_underscore. by rewrite Hc.
Qed.

Lemma file_name_map_chars topic :
  file_name topic = map_chars space_to_underscore topic +:+ "_report.md".
Proof. unfold file_name. f_equal. apply replace_char. Qed.

(** X18.  The file name of the download never contains a space, whatever
    the topic. *)
Theorem file_name_no_space (research_topic : string) :
  contains_char " " (file_name research_topic) = false.
Proof.
  rewrite file_name_map_chars, contains_char_append, map_chars_no_space.
  reflexivity.
Qed.

(** X19.  The file name is ten characters longer than the topic: a space
    is replaced by one character and nothing is dropped or cut. *)
Theorem file_name_length (research_topic : string) :
  String.length (file_name research_topic)
  = (String.length research_topic + 10)%nat.
Proof.
  rewrite file_name_map_chars, length_append, map_chars_length. reflexivity.
Qed.

(** X20.  A topic without spaces is used as it stands: only the space is
    replaced, so any other character of the topic, a path separator
    included, reaches the file name. *)
Theorem file_name_without_spaces (research_topic : string) :
  contains_char " " research_topic = false →
  file_name research_topic = research_topic +:+ "_report.md".
Proof.
  intros H. by rewrite file_name_map_chars, (map_chars_unchanged _ H).
Qed.

Lemma file_name_without_spaces_witness :
  file_name "../notes/AI" = "../notes/AI_report.md".
Proof. exact (file_name_without_spaces "../notes/AI" eq_refl). Defined.

(** X21.  Replacing the spaces a second time changes nothing, so a topic
    and the same topic with underscores for its spaces get the same file
    name. *)
Theorem file_name_collision (research_topic : string) :
  file_name (replace " " "_" research_topic) = file_name research_topic ∧
  replace " " "_" (replace " " "_" research_topic)
  = replace " " "_" research_topic.
Proof.
  assert (replace " " "_" (replace " " "_" research_topic)
          = replace " " "_" research_topic) as Hidem.
  { rewrite !replace_char.
    apply (map_chars_unchanged (map_chars _ research_topic)).
    apply map_chars_no_space. }
  split; [|exact Hidem].
  unfold file_name. by rewrite Hidem.
Qed.
